(** * asset-web-service: a shallow embedding of [asset_web_service.py]

    The development follows the source file top to bottom: the Python
    built-ins the handlers rely on ([str.split], [str.strip], [int],
    [float], [round], [**], [list.sort]), the [Asset] class, the daily-rates
    parser, the handlers of the asset registry and the revenue computation.

    Conventions of the embedding.
    - A Python [str] is a Rocq [string] holding its UTF-8 bytes; byte-wise
      lexicographic order on UTF-8 is code-point order, which is the order
      Python uses on [str].
    - A Python [float] is idealised as an exact rational ([Qc]): binary64
      rounding error, overflow, infinities and NaN are outside the model.
    - A Python [dict] with string keys is a [gmap string _].
    - An exception is a value of [exn] carried by the [result] monad.
    - The module-level list [all_assets] is threaded explicitly as a
      [list Asset]; every handler returns its reply and the new list. *)

From stdpp Require Import base numbers strings list gmap fin_maps sorting.
From Stdlib Require Import ZArith QArith Qcanon Ascii String.

Local Open Scope string_scope.
Local Open Scope Z_scope.

(** ** Exceptions *)

Inductive exn : Set :=
| IndexError
| KeyError
| ValueError
| ZeroDivisionError.

Inductive result (A : Type) : Type :=
| Ok (a : A)
| Raise (e : exn).

Arguments Ok {A} a.
Arguments Raise {A} e.

Definition result_bind {A B : Type} (f : A → result B) (m : result A) : result B :=
  match m with
  | Ok a => f a
  | Raise e => Raise e
  end.

#[global] Instance result_mbind : MBind result := @result_bind.
#[global] Instance result_mret : MRet result := @Ok.

(** A [for] loop whose body updates the loop state [S] and may raise. *)
Fixpoint for_each {A S : Type} (body : A → S → result S) (l : list A) (s : S)
  : result S :=
  match l with
  | [] => Ok s
  | x :: l' => s' ← body x s; for_each body l' s'
  end.

(** ** Python strings *)

Module PyStr.

Definition nl : string := String "010"%char EmptyString.

(** The ASCII characters for which [str.isspace] holds: TAB, LF, VT, FF,
    CR, FS, GS, RS, US and SPACE.  (The non-ASCII white space of Unicode
    is not recognised by the byte model.) *)
Definition is_space (c : ascii) : bool :=
  let n := nat_of_ascii c in
  ((9 <=? n)%nat && (n <=? 13)%nat) || ((28 <=? n)%nat && (n <=? 32)%nat).

(** [s.split(sep)] for a one-character separator: the segments between
    the occurrences of [sep]; always at least one segment. *)
Fixpoint split (sep : ascii) (s : string) : list string :=
  match s with
  | EmptyString => [EmptyString]
  | String c s' =>
      if Ascii.eqb c sep then EmptyString :: split sep s'
      else match split sep s' with
           | seg :: segs => String c seg :: segs
           | [] => [String c EmptyString]
           end
  end.

Fixpoint lstrip (s : string) : string :=
  match s with
  | String c s' => if is_space c then lstrip s' else s
  | EmptyString => EmptyString
  end.

(** [rstrip] drops the trailing white space: a character survives when a
    non-space character follows it or it is one itself. *)
Fixpoint rstrip (s : string) : string :=
  match s with
  | EmptyString => EmptyString
  | String c s' =>
      match rstrip s' with
      | EmptyString => if is_space c then EmptyString else String c EmptyString
      | t => String c t
      end
  end.

(** [s.strip()] *)
Definition strip (s : string) : string := rstrip (lstrip s).

(** [d[k]] on a dict: [KeyError] when the key is missing. *)
Definition dict_getitem {V : Type} (d : gmap string V) (k : string) : result V :=
  match d !! k with
  | Some v => Ok v
  | None => Raise KeyError
  end.

(** [l[i]] on a list: [IndexError] when out of range (non-negative [i]). *)
Definition getitem {A : Type} (l : list A) (i : nat) : result A :=
  match l !! i with
  | Some x => Ok x
  | None => Raise IndexError
  end.

Definition is_digit (c : ascii) : bool :=
  let n := nat_of_ascii c in (48 <=? n)%nat && (n <=? 57)%nat.

Definition digit_val (c : ascii) : Z := Z.of_nat (nat_of_ascii c) - 48.

(** The tail of a [digitpart ::= digit (["_"] digit)*]: accumulated value,
    number of digits read, and the unread rest. *)
Fixpoint digitpart_rest (acc : Z) (n : nat) (s : string) : Z * nat * string :=
  match s with
  | String c s' =>
      if is_digit c then digitpart_rest (10 * acc + digit_val c) (S n) s'
      else if Ascii.eqb c "_"%char then
        match s' with
        | String d s'' =>
            if is_digit d then digitpart_rest (10 * acc + digit_val d) (S n) s''
            else (acc, n, s)
        | EmptyString => (acc, n, s)
        end
      else (acc, n, s)
  | EmptyString => (acc, n, EmptyString)
  end.

Definition digitpart (s : string) : option (Z * nat * string) :=
  match s with
  | String c s' =>
      if is_digit c then Some (digitpart_rest (digit_val c) 1 s') else None
  | EmptyString => None
  end.

(** An optional sign: [true] for a minus. *)
Definition sign (s : string) : bool * string :=
  match s with
  | String "-"%char s' => (true, s')
  | String "+"%char s' => (false, s')
  | _ => (false, s)
  end.

(** [int(s)] for a string argument, base 10: surrounding white space is
    dropped, then an optional sign and a [digitpart] must cover the whole
    string; anything else raises [ValueError].  (Digits are the ASCII
    ones; the other decimal digits of Unicode are not recognised by the
    byte model.) *)
Definition py_int (s : string) : result Z :=
  let '(neg, t) := sign (strip s) in
  match digitpart t with
  | Some (v, _, EmptyString) => Ok (if neg then - v else v)
  | _ => Raise ValueError
  end.

End PyStr.

(** ** Python numbers *)

Module PyNum.
Import PyStr.

Local Open Scope Qc_scope.

(** [10 ** e] as an exact rational, for any integer [e]. *)
Definition pow10 (e : Z) : Qc :=
  if (0 <=? e)%Z then Qc_of_Z (10 ^ e) else / Qc_of_Z (10 ^ (- e)).

(** A [digitpart] read on top of the digits accumulated in [acc]. *)
Definition digitpart_from (acc : Z) (s : string) : option (Z * nat * string) :=
  match s with
  | String c s' =>
      if is_digit c then Some (digitpart_rest (10 * acc + digit_val c)%Z 1 s')
      else None
  | EmptyString => None
  end.

(** [number ::= [digitpart] "." digitpart | digitpart ["."]]: the digits
    read as one integer, the count of digits after the point, the rest. *)
Definition mantissa (s : string) : option (Z * nat * string) :=
  match digitpart_from 0 s with
  | Some (ip, _, String "."%char r) =>
      match digitpart_from ip r with
      | Some frac => Some frac
      | None => Some (ip, 0%nat, r)
      end
  | Some (ip, _, r) => Some (ip, 0%nat, r)
  | None =>
      match s with
      | String "."%char r => digitpart_from 0 r
      | _ => None
      end
  end.

(** [exponent ::= ("e" | "E") [sign] digitpart], optional. *)
Definition exponent (s : string) : option (Z * string) :=
  match s with
  | String c r =>
      if Ascii.eqb c "e"%char || Ascii.eqb c "E"%char then
        let '(neg, r') := sign r in
        match digitpart_from 0 r' with
        | Some (e, _, r'') => Some (if neg then (- e)%Z else e, r'')
        | None => None
        end
      else Some (0%Z, s)
  | EmptyString => Some (0%Z, s)
  end.

(** [float(s)] for a string argument: surrounding white space is dropped,
    then [[sign] number [exponent]] must cover the whole string; anything
    else raises [ValueError].  The value is the exact decimal.  (The
    literals [inf], [infinity] and [nan], which denote no rational, are
    outside the model.) *)
Definition py_float (s : string) : result Qc :=
  let '(neg, t) := sign (strip s) in
  match mantissa t with
  | Some (v, nd, r) =>
      match exponent r with
      | Some (e, EmptyString) =>
          let x := Qc_of_Z v * pow10 (e - Z.of_nat nd) in
          Ok (if neg then - x else x)
      | _ => Raise ValueError
      end
  | None => Raise ValueError
  end.

(** Nearest integer, ties to the even one. *)
Definition round_half_even (q : Q) : Z :=
  let n := Qnum q in
  let d := Zpos (Qden q) in
  let f := (n / d)%Z in
  let r := (n mod d)%Z in
  if (2 * r <? d)%Z then f
  else if (d <? 2 * r)%Z then (f + 1)%Z
  else if Z.even f then f else (f + 1)%Z.

(** [round(x, ndigits)] on a float, for [ndigits >= 0]. *)
Definition py_round (x : Qc) (ndigits : nat) : Qc :=
  let scale := (10 ^ Z.of_nat ndigits)%Z in
  Q2Qc (Qmake (round_half_even (Qmult (this x) (inject_Z scale))) (Z.to_pos scale)).

(** [x / y]: [ZeroDivisionError] when the divisor is zero. *)
Definition py_div (x y : Qc) : result Qc :=
  if decide (y = 0) then Raise ZeroDivisionError else Ok (x / y).

(** [x ** n] for a float [x] and an [int] [n]: zero to a negative power
    raises [ZeroDivisionError]. *)
Definition py_pow (x : Qc) (n : Z) : result Qc :=
  if (0 <=? n)%Z then Ok (x ^ Z.to_nat n)
  else if decide (x = 0) then Raise ZeroDivisionError
  else Ok (/ (x ^ Z.to_nat (- n))).

End PyNum.

(** ** The [Asset] class *)

Module AssetM.
Import PyStr PyNum.

Record Asset : Type := mkAsset {
  char_code : string;
  name : string;
  capital : Qc;
  interest : Qc
}.

Local Open Scope Qc_scope.

(** [Asset.calculate_revenue]:
    [rate * self.capital * ((1.0 + self.interest) ** years - 1.0)] *)
Definition calculate_revenue (self : Asset) (years : Z) (rate : Qc) : result Qc :=
  p ← py_pow (1 + interest self) years;
  mret (rate * capital self * (p - 1)).

Definition quot : ascii := ascii_of_nat 34.

(** [escape] of markupsafe: the five characters significant in markup
    are replaced by character references. *)
Fixpoint escape (s : string) : string :=
  match s with
  | EmptyString => EmptyString
  | String c s' =>
      if Ascii.eqb c "&"%char then "&amp;" +:+ escape s'
      else if Ascii.eqb c "<"%char then "&lt;" +:+ escape s'
      else if Ascii.eqb c ">"%char then "&gt;" +:+ escape s'
      else if Ascii.eqb c "'"%char then "&#39;" +:+ escape s'
      else if Ascii.eqb c quot then "&#34;" +:+ escape s'
      else String c (escape s')
  end.

(** [Asset.build_from_query]; [capital] and [interest] arrive as numbers
    from the route converters, so [float(...)] does not fail on them. *)
Definition build_from_query (char_code name : string) (capital interest : Qc) : Asset :=
  mkAsset (escape char_code) (escape name) capital interest.

(** [Asset.get_asset]: the four fields, in the order of the JSON row. *)
Definition get_asset (self : Asset) : string * string * Qc * Qc :=
  (char_code self, name self, capital self, interest self).

End AssetM.

(** ** The parsed markup document

    [lxml.html.fromstring] is the library's parser; the embedding starts
    from its output, the element tree.  An element has a tag, attributes,
    the text before its first child, its children, and the text that
    follows it inside its parent (its tail). *)

#[warnings="-register-all"]
Inductive element : Type :=
| Element (tag : string) (attrib : gmap string string) (text : string)
          (children : list element) (tail : string).

Module Html.

Definition tag (el : element) : string := let 'Element t _ _ _ _ := el in t.
Definition attrib (el : element) : gmap string string := let 'Element _ a _ _ _ := el in a.
Definition tail (el : element) : string := let 'Element _ _ _ _ t := el in t.

(** [el.text_content()]: the text of the element and of all its
    descendants, in document order; the tails of the descendants are
    part of it, the element's own tail is not. *)
Fixpoint text_content (el : element) : string :=
  let 'Element _ _ text children _ := el in
  text +:+ foldr (λ child acc, text_content child +:+ tail child +:+ acc)
                 EmptyString children.

Definition is_data_table (el : element) : bool :=
  bool_decide (tag el = "table") && bool_decide (attrib el !! "class" = Some "data").

(** The elements selected by [//table[@class="data"]/tbody/tr] below
    [el], in document order.  [in_table] tells that the parent of [el] is
    a [table] of class [data], [in_tbody] that it is a [tbody] child of
    such a table. *)
Fixpoint select_rows (in_table in_tbody : bool) (el : element) : list element :=
  let here := if in_tbody && bool_decide (tag el = "tr") then [el] else [] in
  let 'Element _ _ _ children _ := el in
  (here ++ flat_map (select_rows (is_data_table el)
                                (in_table && bool_decide (tag el = "tbody")))
                   children)%list.

(** [root.xpath('//table[@class="data"]/tbody/tr')] *)
Definition xpath_data_rows (root : element) : list element :=
  select_rows false false root.

End Html.

(** ** The daily-rates parser *)

Module RateParser.
Import PyStr PyNum Html.

(** One turn of the loop of [parse_cbr_currency_base_daily]. *)
Definition parse_row (el : element) (currencies : gmap string Qc)
  : result (gmap string Qc) :=
  seg_code ← getitem (split "010"%char (text_content el)) 2;
  let char_code := strip seg_code in
  seg_unit ← getitem (split "010"%char (text_content el)) 3;
  unit ← py_int seg_unit;
  seg_rate ← getitem (split "010"%char (text_content el)) 5;
  rate ← py_float seg_rate;
  quotient ← py_div rate (Qc_of_Z unit);
  mret (<[char_code := py_round quotient 8]> currencies).

(** [parse_cbr_currency_base_daily], from the parsed document on. *)
Definition parse_cbr_currency_base_daily (root : element) : result (gmap string Qc) :=
  let elements := xpath_data_rows root in
  for_each parse_row (drop 1 elements) ∅.

End RateParser.

(** ** The handlers *)

(** What a handler hands back to the framework: a body with a status, or
    [abort(status)]. *)
Inductive reply (A : Type) : Type :=
| Reply (body : A) (status : Z)
| Abort (status : Z).

Arguments Reply {A} body status.
Arguments Abort {A} status.

Module Service.
Import PyStr PyNum AssetM.

Local Open Scope Qc_scope.

(** [asset_has_duplicate_name] *)
Fixpoint asset_has_duplicate_name (all_assets : list Asset) (new_asset : Asset) : bool :=
  match all_assets with
  | [] => false
  | asset :: rest =>
      if decide (name asset = name new_asset) then true
      else asset_has_duplicate_name rest new_asset
  end.

(** [add_asset] *)
Definition add_asset (char_code name : string) (capital interest : Qc)
    (all_assets : list Asset) : reply string * list Asset :=
  let new_asset := build_from_query char_code name capital interest in
  if asset_has_duplicate_name all_assets new_asset then
    (Reply "Duplicate asset name" 403, all_assets)
  else
    (Reply ("Asset " +:+ AssetM.name new_asset +:+ " was successfully added") 200,
     (all_assets ++ [new_asset])%list).

(** [list.sort(key=lambda x: x.char_code)].  Python's sort is stable and
    compares keys with [<]; a stable sort has one possible outcome, which
    the insertion below produces: an asset goes in front of the first one
    whose key is not smaller than its own. *)
Fixpoint insert_by_char_code (a : Asset) (l : list Asset) : list Asset :=
  match l with
  | [] => [a]
  | b :: l' =>
      if String.leb (char_code a) (char_code b) then a :: b :: l'
      else b :: insert_by_char_code a l'
  end.

Definition sort_by_char_code (l : list Asset) : list Asset :=
  foldr insert_by_char_code [] l.

(** [print_assets]: sorts the registry in place, then lists it. *)
Definition print_assets (all_assets : list Asset)
  : reply (list (string * string * Qc * Qc)) * list Asset :=
  let all_assets := sort_by_char_code all_assets in
  (Reply (map get_asset all_assets) 200, all_assets).

(** [clean_assets] *)
Definition clean_assets (all_assets : list Asset) : reply string * list Asset :=
  (Reply EmptyString 200, []).

(** [get_assets_by_name]; [input_names] is [request.args.getlist("name")]. *)
Definition get_assets_by_name (input_names : list string) (all_assets : list Asset)
  : reply (list (string * string * Qc * Qc)) * list Asset :=
  let all_assets := sort_by_char_code all_assets in
  (Reply (map get_asset
              (filter (λ asset, name asset ∈ input_names) all_assets)) 200,
   all_assets).

(** The first part of the body of the inner loop of [calc_all_revenue]
    (from [asset_code = ...] to the choice of [rate]): the rate applied to
    the asset, and [currencies] as the body leaves it. *)
Definition select_rate (indicators : gmap string Qc) (asset : Asset)
    (currencies : gmap string Qc) : result (Qc * gmap string Qc) :=
  let asset_code := char_code asset in
  let currencies :=
    if decide (asset_code = "RUB") then <["RUB" := 1]> currencies else currencies in
  rate ← match indicators !! asset_code with
         | Some _ => dict_getitem indicators asset_code
         | None => Ok (default 0 (currencies !! asset_code))
         end;
  mret (rate, currencies).

(** The body of the inner loop.  The loop state is the pair of the two
    dicts the body writes to: [currencies] (the RUB entry) and [res]. *)
Definition asset_step (indicators : gmap string Qc) (period : string) (asset : Asset)
    (st : gmap string Qc * gmap string Qc) : result (gmap string Qc * gmap string Qc) :=
  let '(currencies, res) := st in
  '(rate, currencies) ← select_rate indicators asset currencies;
  acc ← dict_getitem res period;
  years ← py_int period;
  revenue ← calculate_revenue asset years rate;
  mret (currencies, <[period := acc + revenue]> res).

(** The body of the outer loop. *)
Definition period_step (indicators : gmap string Qc) (all_assets : list Asset)
    (period : string) (st : gmap string Qc * gmap string Qc)
  : result (gmap string Qc * gmap string Qc) :=
  let '(currencies, res) := st in
  let res := <[period := 0]> res in
  '(currencies, res) ← for_each (asset_step indicators period) all_assets (currencies, res);
  total ← dict_getitem res period;
  mret (currencies, <[period := py_round total 8]> res).

(** The [try] block of [calc_all_revenue], once both tables are there. *)
Definition revenue_table (input_periods : list string)
    (indicators currencies : gmap string Qc) (all_assets : list Asset)
  : result (gmap string Qc) :=
  '(_, res) ← for_each (period_step indicators all_assets) input_periods (currencies, ∅);
  mret res.

(** [calc_all_revenue].  [get_indicators] and [get_daily_currencies] stand
    for the outcomes of the two calls of these names: the table, or [None]
    when the call ends in [abort(503)].  Whatever is raised inside the
    [try] block ends in [abort(503)]. *)
Definition calc_all_revenue (input_periods : list string)
    (get_indicators get_daily_currencies : option (gmap string Qc))
    (all_assets : list Asset) : reply (gmap string Qc) * list Asset :=
  match get_indicators, get_daily_currencies with
  | Some indicators, Some currencies =>
      match revenue_table input_periods indicators currencies all_assets with
      | Ok res => (Reply res 200, all_assets)
      | Raise _ => (Abort 503, all_assets)
      end
  | _, _ => (Abort 503, all_assets)
  end.

(** *** The service as a transition system on [all_assets] *)

Inductive request : Type :=
| ReqAdd (char_code name : string) (capital interest : Qc)
| ReqList
| ReqCleanup
| ReqGet (input_names : list string)
| ReqCalculateRevenue (input_periods : list string)
                      (get_indicators get_daily_currencies : option (gmap string Qc)).

(** The registry after a request has been served. *)
Definition serve (r : request) (all_assets : list Asset) : list Asset :=
  match r with
  | ReqAdd c n cap i => snd (add_asset c n cap i all_assets)
  | ReqList => snd (print_assets all_assets)
  | ReqCleanup => snd (clean_assets all_assets)
  | ReqGet names => snd (get_assets_by_name names all_assets)
  | ReqCalculateRevenue ps ind cur => snd (calc_all_revenue ps ind cur all_assets)
  end.

Definition serve_all (rs : list request) (all_assets : list Asset) : list Asset :=
  foldl (λ st r, serve r st) all_assets rs.


End Service.

(** ** Vocabulary of the specification *)

Module Spec.
Import PyStr PyNum AssetM Html Service.

Local Open Scope Qc_scope.

(** Ascending order on [charCode]. *)
Definition by_char_code : relation Asset :=
  λ a b, String.le (char_code a) (char_code b).

(** The requests that only read the registry: list and findByNames. *)
Definition is_read (r : request) : Prop :=
  match r with
  | ReqList | ReqGet _ => True
  | _ => False
  end.

Definition is_add (r : request) : Prop :=
  match r with
  | ReqAdd _ _ _ _ => True
  | _ => False
  end.

(** A period of the specification: the text of a non-negative integer. *)
Definition period_of (s : string) (p : Z) : Prop :=
  py_int s = Ok p ∧ (0 ≤ p)%Z.

(** The rate the handler applies to an asset, read off the two tables as
    they are when the request starts. *)
Definition applicable_rate (indicators currencies : gmap string Qc) (a : Asset) : Qc :=
  match indicators !! char_code a with
  | Some r => r
  | None =>
      if decide (char_code a = "RUB") then 1
      else default 0 (currencies !! char_code a)
  end.

(** [rate × capital × ((1 + interestRate)^p − 1)] *)
Definition closed_form (rate : Qc) (a : Asset) (p : Z) : Qc :=
  rate * capital a * ((1 + interest a) ^ Z.to_nat p - 1).

(** The sum of the closed form over the assets. *)
Definition revenue_sum (indicators currencies : gmap string Qc)
    (assets : list Asset) (p : Z) : Qc :=
  foldr Qcplus 0 (map (λ a, closed_form (applicable_rate indicators currencies a) a p) assets).

(** The total the specification gives for the period written [s]. *)
Definition period_total (indicators currencies : gmap string Qc)
    (assets : list Asset) (s : string) : Qc :=
  match py_int s with
  | Ok p => py_round (revenue_sum indicators currencies assets p) 8
  | Raise _ => 0
  end.

(** The answer of the specification: one total per requested period. *)
Definition totals (indicators currencies : gmap string Qc)
    (assets : list Asset) (periods : list string) (res : gmap string Qc)
  : gmap string Qc :=
  foldl (λ m s, <[s := period_total indicators currencies assets s]> m) res periods.

(** [currencies'] is [currencies] up to its RUB entry, the only one the
    handler ever writes. *)
Definition rub_ext (currencies currencies' : gmap string Qc) : Prop :=
  ∀ k, k ≠ "RUB" → currencies' !! k = currencies !! k.

(** The segments of a table row, as the parser cuts them. *)
Definition segments (el : element) : list string :=
  split "010"%char (text_content el).



(** The document holds a [table] of class [data] somewhere. *)
Fixpoint has_data_table (el : element) : bool :=
  let 'Element _ _ _ children _ := el in
  is_data_table el || existsb has_data_table children.


End Spec.

(** ** Sample data *)

Module Sample.
Import PyStr PyNum AssetM Html.

(** [Asset(char_code="RUB", capital=100, interest=0.1)], under any name. *)
Definition rub_asset (name : string) : Asset :=
  mkAsset "RUB" name (Qc_of_Z 100) (Q2Qc (1 # 10)).


(** A page whose only table is the rates table with the given rows. *)
Definition page (rows : list element) : element :=
  Element "html" ∅ EmptyString
    [Element "body" ∅ EmptyString
       [Element "table" {["class" := "data"]} EmptyString
          [Element "tbody" ∅ EmptyString rows EmptyString]
          EmptyString]
       EmptyString]
    EmptyString.

Definition header_row : element :=
  Element "tr" ∅ EmptyString
    [Element "th" ∅ "Num code" [] EmptyString;
     Element "th" ∅ "Char code" [] EmptyString;
     Element "th" ∅ "Unit" [] EmptyString;
     Element "th" ∅ "Currency" [] EmptyString;
     Element "th" ∅ "Rate" [] EmptyString]
    EmptyString.


(** A row laid out as on the published page: one cell per line. *)
Definition usd_row : element :=
  Element "tr" ∅ nl
    [Element "td" ∅ "840" [] nl;
     Element "td" ∅ "USD" [] nl;
     Element "td" ∅ "978" [] nl;
     Element "td" ∅ "US Dollar" [] nl;
     Element "td" ∅ "62.3450" [] nl]
    EmptyString.

(** A small portfolio and two rate tables. *)
Definition usd_asset : Asset := mkAsset "USD" "A" (Qc_of_Z 250) (Q2Qc (5 # 100)).
Definition cny_asset : Asset := mkAsset "CNY" "B" (Qc_of_Z 40) (Q2Qc (1 # 4)).
Definition indicators : gmap string Qc := {["USD" := Qc_of_Z 70]}.
Definition currencies : gmap string Qc :=
  <["CNY" := Qc_of_Z 10]> {["USD" := Qc_of_Z 69]}.

(** A page with no table at all. *)
Definition page_without_table : element :=
  Element "html" ∅ EmptyString
    [Element "body" ∅ EmptyString
       [Element "p" ∅ "Service temporarily unavailable" [] EmptyString]
       EmptyString]
    EmptyString.

End Sample.

(** ** Python sequences: slices and comprehensions *)

Module PySeq.
Import PyStr.

(** [l[start:-cut]] for [cut > 0]: what lies from index [start] on, short
    of the last [cut] items; empty when the list is too short. *)
Definition slice_inner {A : Type} (start cut : nat) (l : list A) : list A :=
  drop start (take (List.length l - cut) l).

(** The items of [l] met every [step] positions, the first one after
    [wait] items have been passed over. *)
Fixpoint stride_go {A : Type} (step wait : nat) (l : list A) : list A :=
  match l with
  | [] => []
  | x :: l' =>
      match wait with
      | O => x :: stride_go step (step - 1) l'
      | S w => stride_go step w l'
      end
  end.

(** [l[start::step]] for [step > 0]. *)
Definition stride {A : Type} (start step : nat) (l : list A) : list A :=
  stride_go step 0 (drop start l).

(** [l[-k]] for [k > 0]: [IndexError] when the list has fewer than [k]
    items. *)
Definition getitem_last {A : Type} (l : list A) (k : nat) : result A :=
  if decide (k ≤ List.length l)%nat then getitem l (List.length l - k)
  else Raise IndexError.

(** [s.replace(c, '')] for a one-character [c]. *)
Fixpoint remove_char (c : ascii) (s : string) : string :=
  match s with
  | EmptyString => EmptyString
  | String d s' =>
      if Ascii.eqb d c then remove_char c s' else String d (remove_char c s')
  end.

(** [[f(x) for x in l]] when [f] may raise: the first exception ends the
    comprehension. *)
Fixpoint comprehension {A B : Type} (f : A → result B) (l : list A) : result (list B) :=
  match l with
  | [] => Ok []
  | x :: l' => y ← f x; ys ← comprehension f l'; mret (y :: ys)
  end.

(** [dict(pairs)]: a later pair overwrites an earlier one with its key. *)
Definition dict_of {V : Type} (pairs : list (string * V)) : gmap string V :=
  foldl (λ m kv, <[kv.1 := kv.2]> m) ∅ pairs.

End PySeq.

(** ** The key-indicators parser *)

Module IndicatorParser.
Import PyStr PyNum PySeq Html.

Definition is_indicator_block (el : element) : bool :=
  bool_decide (tag el = "div")
  && bool_decide (attrib el !! "class" = Some "table key-indicator_table").

(** The elements selected by [//div[@class="table key-indicator_table"]]
    in the tree of [el], in document order. *)
Fixpoint select_blocks (el : element) : list element :=
  let 'Element _ _ _ children _ := el in
  ((if is_indicator_block el then [el] else []) ++ flat_map select_blocks children)%list.

(** [parse_cbr_key_indicators], from the parsed document on. *)
Definition parse_cbr_key_indicators (root : element) : result (gmap string Qc) :=
  let elements := select_blocks root in
  block ← getitem elements 1;
  let metals := slice_inner 11 4 (split "010"%char (text_content block)) in
  let codes := map strip (stride 0 9 metals) in
  prices ← comprehension (λ price, py_float (remove_char ","%char price))
                         (stride 3 9 metals);
  let indicators := dict_of (zip codes prices) in
  block ← getitem elements 0;
  seg_usd ← getitem (split "010"%char (text_content block)) 16;
  usd ← py_float seg_usd;
  let indicators := <["USD" := usd]> indicators in
  block ← getitem elements 0;
  seg_eur ← getitem_last (split "010"%char (text_content block)) 5;
  eur ← py_float seg_eur;
  mret (<["EUR" := eur]> indicators).

End IndicatorParser.

(** ** The two upstream routes

    [requests.get] and [lxml.html.fromstring] are the libraries'; the
    embedding starts from their outcome: no answer at all (an exception of
    [requests.get]), or an answer with its status code and the tree parsed
    from its text ([None] when [fromstring] raises on that text). *)

Inductive upstream : Type :=
| Unreachable
| Answered (status_code : Z) (document : option element).

Module Routes.
Import RateParser IndicatorParser Service.

(** The common shape of [get_daily_currencies] and [get_indicators]: the
    table parsed from a 200 answer; [abort(503)] for any other status and
    for whatever is raised on the way. *)
Definition fetch_with (parse : element → result (gmap string Qc)) (up : upstream)
  : reply (gmap string Qc) :=
  match up with
  | Unreachable => Abort 503
  | Answered status_code document =>
      if decide (status_code = 200) then
        match document with
        | Some root =>
            match parse root with
            | Ok table => Reply table 200
            | Raise _ => Abort 503
            end
        | None => Abort 503
        end
      else Abort 503
  end.

(** [get_daily_currencies] *)
Definition get_daily_currencies (up : upstream) : reply (gmap string Qc) :=
  fetch_with parse_cbr_currency_base_daily up.

(** [get_indicators] *)
Definition get_indicators (up : upstream) : reply (gmap string Qc) :=
  fetch_with parse_cbr_key_indicators up.

(** What a call of a handler from inside another one yields: its body, or
    nothing when it ends in [abort]. *)
Definition returned {A : Type} (r : reply A) : option A :=
  match r with
  | Reply body _ => Some body
  | Abort _ => None
  end.

(** [calc_all_revenue] with its two calls spelled out. *)
Definition calculate_revenue_route (input_periods : list string)
    (indicators_page daily_page : upstream) (all_assets : list AssetM.Asset)
  : reply (gmap string Qc) * list AssetM.Asset :=
  calc_all_revenue input_periods
    (returned (get_indicators indicators_page))
    (returned (get_daily_currencies daily_page))
    all_assets.

(** [page_do_not_exist] and [cbr_is_unavailable], the two error handlers. *)
Definition page_do_not_exist : reply string := Reply "This route is not found" 404.
Definition cbr_is_unavailable : reply string := Reply "CBR service is unavailable" 503.

End Routes.

(** ** Further vocabulary *)

Module Vocabulary.
Import PyStr PyNum PySeq AssetM Html Service Spec.

Local Open Scope Qc_scope.








Definition is_cleanup (r : request) : Prop :=
  match r with
  | ReqCleanup => True
  | _ => False
  end.

End Vocabulary.

(** ** Further sample data *)

Module Sample2.
Import PyStr PyNum AssetM Html.

(** ["\n".join(l)] *)
Fixpoint join_lines (l : list string) : string :=
  match l with
  | [] => EmptyString
  | [x] => x
  | x :: l' => x +:+ nl +:+ join_lines l'
  end.

Definition block (lines : list string) : element :=
  Element "div" {["class" := "table key-indicator_table"]} (join_lines lines) []
          EmptyString.

(** The block of the reference rates: the USD rate on its 17th line, the
    EUR rate on its 5th line from the end. *)
Definition rates_block : element :=
  block (replicate 16 EmptyString ++ ["75.5"] ++ replicate 4 EmptyString
         ++ ["90.25"] ++ replicate 4 EmptyString)%list.

Definition gold : list string :=
  ["  Au"; EmptyString; EmptyString; "5,123.45"; EmptyString; EmptyString;
   EmptyString; EmptyString; EmptyString].

Definition silver : list string :=
  ["  Ag"; EmptyString; EmptyString; "61.2"; EmptyString; EmptyString;
   EmptyString; EmptyString; EmptyString].

(** The block of the metals: eleven lines of heading, nine lines per
    metal, four closing lines. *)
Definition metals_block : element :=
  block (replicate 11 "heading" ++ gold ++ silver ++ replicate 4 EmptyString)%list.

(** What the metals block reads as, and the two reference rates. *)
Definition metal_entries : list (string * Qc) :=
  [("Au", Q2Qc (512345 # 100)); ("Ag", Q2Qc (612 # 10))].

Definition parsed_indicators : gmap string Qc :=
  <["EUR" := Q2Qc (9025 # 100)]>
    (<["USD" := Q2Qc (755 # 10)]> (PySeq.dict_of metal_entries)).

Definition indicators_page : element :=
  Element "html" ∅ EmptyString
    [Element "body" ∅ EmptyString [rates_block; metals_block] EmptyString]
    EmptyString.

End Sample2.

(** * Properties *)

(** ** Loops in the [result] monad *)

Section for_each_facts.
Context {A S : Type}.
Implicit Types (body : A → S → result S) (l : list A) (s : S).

Lemma for_each_app body l1 l2 s :
  for_each body (l1 ++ l2) s = s' ← for_each body l1 s; for_each body l2 s'.
Proof.
  revert s. induction l1 as [|x l1 IH]; intros s; simpl; [done|].
  destruct (body x s) as [s'|e]; simpl; [apply IH | done].
Qed.

Lemma for_each_cons body x l s :
  for_each body (x :: l) s = s' ← body x s; for_each body l s'.
Proof. done. Qed.

Lemma result_bind_ok {B : Type} (f : S → result B) s : (s' ← Ok s; f s') = f s.
Proof. done. Qed.


End for_each_facts.

(** ** Sorting by [char_code] *)


Section sorting_facts.
Import AssetM Service Spec.

#[local] Instance by_char_code_trans : Transitive by_char_code.
Proof. intros a b c. unfold by_char_code. apply transitivity. Qed.

Lemma leb_false_ge (a b : Asset) :
  String.leb (char_code a) (char_code b) = false → by_char_code b a.
Proof.
  intros H. unfold by_char_code.
  destruct (total String.le (char_code a) (char_code b)) as [Hab|Hba]; [|done].
  unfold String.le in Hab. rewrite H in Hab. done.
Qed.

Lemma insert_by_char_code_perm a l : insert_by_char_code a l ≡ₚ a :: l.
Proof.
  induction l as [|b l IH]; simpl; [done|].
  destruct (String.leb _ _); [done|].
  rewrite IH. apply Permutation_swap.
Qed.

Lemma sort_by_char_code_perm l : sort_by_char_code l ≡ₚ l.
Proof.
  induction l as [|a l IH]; simpl; [done|].
  rewrite insert_by_char_code_perm. by rewrite IH.
Qed.

Lemma insert_by_char_code_sorted a l :
  StronglySorted by_char_code l → StronglySorted by_char_code (insert_by_char_code a l).
Proof.
  induction 1 as [|b l Hl IH Hb]; simpl.
  - repeat constructor.
  - destruct (String.leb (char_code a) (char_code b)) eqn:Hab.
    + constructor; [by constructor|].
      assert (by_char_code a b) as Hab' by (unfold by_char_code, String.le; by rewrite Hab).
      constructor; [done|].
      eapply Forall_impl; [exact Hb|]. intros c Hbc. by transitivity b.
    + constructor; [done|].
      rewrite insert_by_char_code_perm. constructor; [by apply leb_false_ge | done].
Qed.

Lemma sort_by_char_code_sorted l : StronglySorted by_char_code (sort_by_char_code l).
Proof.
  induction l as [|a l IH]; simpl; [constructor|].
  by apply insert_by_char_code_sorted.
Qed.

(** Stability: assets with one and the same [char_code] keep their order.
    Together with the two lemmas above this fixes the outcome of any stable
    sort, which is why the insertion sort stands for Python's. *)
Lemma insert_by_char_code_stable c a l :
  filter (λ x, char_code x = c) (insert_by_char_code a l)
  = filter (λ x, char_code x = c) (a :: l).
Proof.
  induction l as [|b l IH]; simpl; [done|].
  destruct (String.leb (char_code a) (char_code b)) eqn:Hab; [done|].
  rewrite filter_cons, IH, !filter_cons.
  destruct (decide (char_code b = c)) as [Hb|Hb],
    (decide (char_code a = c)) as [Ha|Ha]; try done.
  exfalso. rewrite Ha, Hb in Hab.
  assert (String.le c c) as Hcc by done.
  unfold String.le in Hcc. by rewrite Hab in Hcc.
Qed.

Lemma sort_by_char_code_stable c l :
  filter (λ x, char_code x = c) (sort_by_char_code l) = filter (λ x, char_code x = c) l.
Proof.
  induction l as [|a l IH]; simpl; [done|].
  rewrite insert_by_char_code_stable, !filter_cons. by rewrite IH.
Qed.

End sorting_facts.

(** ** The asset registry *)

Module Registry.
Import PyStr PyNum AssetM Service Spec.










Lemma serve_non_add_empty r : ¬ is_add r → serve r [] = [].
Proof.
  destruct r as [c n cap i| | |names|ps ind cur]; simpl; try done.
  intros _. unfold calc_all_revenue.
  destruct ind, cur; simpl; try done. by destruct (revenue_table _ _ _ _).
Qed.

Lemma serve_all_non_add_empty rs : Forall (λ r, ¬ is_add r) rs → serve_all rs [] = [].
Proof.
  induction 1 as [|r rs Hr _ IH]; simpl; [done|].
  unfold serve_all in *. simpl. by rewrite serve_non_add_empty.
Qed.

(** C9. Cleaning up discards every asset, whatever the registry held:
    after any run of requests none of which adds an asset the registry is
    still empty and listing answers with the empty sequence. *)
Theorem clean_assets_then_list_is_empty (all_assets : list Asset) :
  clean_assets all_assets = (Reply EmptyString 200, [])
  ∧ ∀ rs, Forall (λ r, ¬ is_add r) rs →
      serve_all rs (clean_assets all_assets).2 = []
      ∧ print_assets (serve_all rs (clean_assets all_assets).2) = (Reply [] 200, []).
Proof.
  split; [done|]. intros rs Hrs. simpl.
  rewrite (serve_all_non_add_empty rs Hrs). done.
Qed.

Lemma serve_read_perm r all_assets : is_read r → serve r all_assets ≡ₚ all_assets.
Proof.
  destruct r; simpl; try done; intros _; apply sort_by_char_code_perm.
Qed.

(** C10. Listing and findByNames only reorder the registry: the multiset
    of stored assets after either of them, and after any run of them, is
    the one before. *)
Theorem reads_keep_the_stored_assets (all_assets : list Asset) :
  (print_assets all_assets).2 ≡ₚ all_assets
  ∧ (∀ input_names, (get_assets_by_name input_names all_assets).2 ≡ₚ all_assets)
  ∧ (∀ rs, Forall is_read rs → serve_all rs all_assets ≡ₚ all_assets).
Proof.
  split; [apply sort_by_char_code_perm|].
  split; [intros; apply sort_by_char_code_perm|].
  intros rs Hrs. revert all_assets.
  induction Hrs as [|r rs Hr _ IH]; intros l; [done|].
  unfold serve_all in *. simpl. rewrite IH. by apply serve_read_perm.
Qed.

End Registry.

(** ** The revenue computation *)

Module Revenue.
Import PyStr PyNum AssetM Service Spec.

Local Open Scope Qc_scope.

Lemma rub_ext_refl currencies : rub_ext currencies currencies.
Proof. by intros k _. Qed.

(** Whatever the loop has written to [currencies] so far, the rate chosen
    for an asset is the one read off the tables of the request. *)
Lemma select_rate_applicable indicators currencies currencies' a :
  rub_ext currencies currencies' →
  ∃ currencies'',
    select_rate indicators a currencies'
    = Ok (applicable_rate indicators currencies a, currencies'')
    ∧ rub_ext currencies currencies''.
Proof.
  intros Hext. unfold select_rate, applicable_rate, dict_getitem.
  destruct (decide (char_code a = "RUB")) as [Hrub|Hrub].
  - exists (<["RUB" := 1]> currencies'). rewrite Hrub.
    destruct (indicators !! "RUB") as [r|] eqn:Hind; simpl.
    + split; [done|]. intros k Hk. by rewrite lookup_insert_ne, Hext.
    + rewrite lookup_insert_eq. simpl.
      split; [done|]. intros k Hk. by rewrite lookup_insert_ne, Hext.
  - exists currencies'.
    destruct (indicators !! char_code a) as [r|] eqn:Hind; simpl; [done|].
    by rewrite Hext.
Qed.

Lemma calculate_revenue_closed_form a p rate :
  (0 ≤ p)%Z → calculate_revenue a p rate = Ok (closed_form rate a p).
Proof.
  intros Hp. unfold calculate_revenue, py_pow, closed_form.
  by rewrite (proj2 (Z.leb_le 0 p) Hp).
Qed.

Lemma asset_step_closed_form indicators currencies s p a currencies' res acc :
  period_of s p → rub_ext currencies currencies' → res !! s = Some acc →
  ∃ currencies'',
    asset_step indicators s a (currencies', res)
    = Ok (currencies'',
          <[s := acc + closed_form (applicable_rate indicators currencies a) a p]> res)
    ∧ rub_ext currencies currencies''.
Proof.
  intros [Hs Hp] Hext Hacc.
  destruct (select_rate_applicable indicators currencies currencies' a Hext)
    as (cur1 & Hsel & Hext1).
  exists cur1. split; [|done].
  unfold asset_step. rewrite Hsel. simpl.
  unfold dict_getitem. rewrite Hacc. simpl. rewrite Hs. simpl.
  by rewrite (calculate_revenue_closed_form _ _ _ Hp).
Qed.

(** The inner loop adds the closed-form sum to the running total. *)
Lemma asset_loop_closed_form indicators currencies s p assets :
  period_of s p →
  ∀ currencies' res acc,
    rub_ext currencies currencies' → res !! s = Some acc →
    ∃ currencies'',
      for_each (asset_step indicators s) assets (currencies', res)
      = Ok (currencies'',
            <[s := acc + revenue_sum indicators currencies assets p]> res)
      ∧ rub_ext currencies currencies''.
Proof.
  intros Hsp. induction assets as [|a assets IH]; intros cur' res acc Hext Hacc.
  - exists cur'. split; [|done]. simpl. unfold revenue_sum. simpl.
    rewrite Qcplus_0_r. by rewrite insert_id.
  - destruct (asset_step_closed_form indicators currencies s p a cur' res acc
                Hsp Hext Hacc) as (cur1 & Hstep & Hext1).
    destruct (IH cur1 (<[s := acc + closed_form (applicable_rate indicators currencies a) a p]> res)
                (acc + closed_form (applicable_rate indicators currencies a) a p) Hext1)
      as (cur2 & Hloop & Hext2); [apply lookup_insert_eq|].
    exists cur2. split; [|done].
    rewrite for_each_cons, Hstep, result_bind_ok, Hloop, insert_insert_eq.
    do 2 f_equal. unfold revenue_sum. simpl. f_equal. ring.
Qed.

Lemma period_step_total indicators currencies assets s p currencies' res :
  period_of s p → rub_ext currencies currencies' →
  ∃ currencies'',
    period_step indicators assets s (currencies', res)
    = Ok (currencies'', <[s := period_total indicators currencies assets s]> res)
    ∧ rub_ext currencies currencies''.
Proof.
  intros Hsp Hext.
  destruct (asset_loop_closed_form indicators currencies s p assets Hsp
              currencies' (<[s := 0]> res) 0 Hext) as (cur2 & Hloop & Hext2);
    [apply lookup_insert_eq|].
  exists cur2. split; [|done].
  unfold period_step. rewrite Hloop, result_bind_ok.
  unfold dict_getitem. rewrite lookup_insert_eq. simpl.
  rewrite !insert_insert_eq. unfold period_total. destruct Hsp as [-> _].
  by rewrite Qcplus_0_l.
Qed.

Lemma period_loop_totals indicators currencies assets periods :
  Forall (λ s, ∃ p, period_of s p) periods →
  ∀ currencies' res,
    rub_ext currencies currencies' →
    ∃ currencies'',
      for_each (period_step indicators assets) periods (currencies', res)
      = Ok (currencies'', totals indicators currencies assets periods res)
      ∧ rub_ext currencies currencies''.
Proof.
  induction 1 as [|s periods [p Hsp] _ IH]; intros cur' res Hext.
  - by exists cur'.
  - destruct (period_step_total indicators currencies assets s p cur' res Hsp Hext)
      as (cur1 & Hstep & Hext1).
    destruct (IH cur1 (<[s := period_total indicators currencies assets s]> res) Hext1)
      as (cur2 & Hloop & Hext2).
    exists cur2. split; [|done].
    by rewrite for_each_cons, Hstep, result_bind_ok, Hloop.
Qed.

(** On periods that are non-negative integers the handler computes the
    totals of the specification. *)
Lemma revenue_table_totals indicators currencies assets periods :
  Forall (λ s, ∃ p, period_of s p) periods →
  revenue_table periods indicators currencies assets
  = Ok (totals indicators currencies assets periods ∅).
Proof.
  intros Hps.
  destruct (period_loop_totals indicators currencies assets periods Hps
              currencies ∅ (rub_ext_refl _)) as (cur' & Hloop & _).
  unfold revenue_table. by rewrite Hloop.
Qed.










End Revenue.

(** ** The daily-rates parser *)

Section element_induction.
Variable P : element → Prop.
Hypothesis P_element : ∀ tag attrib text children tail,
  Forall P children → P (Element tag attrib text children tail).

Fixpoint element_forall_ind (el : element) : P el :=
  let 'Element tag attrib text children tail := el in
  P_element tag attrib text children tail
    ((fix children_ind (l : list element) : Forall P l :=
        match l with
        | [] => @List.Forall_nil element P
        | x :: l' => @List.Forall_cons element P x l' (element_forall_ind x) (children_ind l')
        end) children).

End element_induction.

Module Daily.
Import PyStr PyNum Html RateParser Spec.

Local Open Scope Qc_scope.

Lemma flat_map_all_nil {A B : Type} (f : A → list B) (l : list A) :
  Forall (λ x, f x = []) l → flat_map f l = [].
Proof. induction 1 as [|x l Hx _ IH]; simpl; [done|]. by rewrite Hx, IH. Qed.

(** Without a table of class [data] the row query selects nothing. *)
Lemma no_data_table_no_rows (root : element) :
  has_data_table root = false → xpath_data_rows root = [].
Proof.
  unfold xpath_data_rows.
  induction root as [tag attrib text children tail IH] using element_forall_ind.
  intros Hno. simpl in Hno. apply orb_false_elim in Hno as [Hroot Hch].
  simpl. rewrite Hroot. apply flat_map_all_nil.
  rewrite Forall_forall in IH. apply Forall_forall. intros child Hin.
  apply IH; [done|].
  destruct (has_data_table child) eqn:Hc; [|done].
  assert (existsb has_data_table children = true) as Hex
    by (apply existsb_exists; exists child; split; [by apply list_elem_of_In | done]).
  congruence.
Qed.







(** The value of the example: [round(62.3450 / 978, 8) = 0.06374744]. *)
Lemma usd_example_value :
  py_round (Q2Qc (623450 # 10000) / Qc_of_Z 978) 8 = Q2Qc (6374744 # 100000000).
Proof. apply Qc_decomp. vm_compute. reflexivity. Qed.


End Daily.

(** ** The properties at sample inputs *)

Module Witness.
Import PyStr PyNum AssetM Html RateParser Service Spec.

Local Open Scope Qc_scope.









Lemma reads_after_cleanup_at_sample :
  Forall (λ r, ¬ is_add r) [ReqList; ReqGet ["A"]; ReqCleanup]
  ∧ print_assets (serve_all [ReqList; ReqGet ["A"]; ReqCleanup]
                    (clean_assets [Sample.usd_asset; Sample.cny_asset]).2)
    = (Reply [] 200, []).
Proof.
  assert (Forall (λ r, ¬ is_add r) [ReqList; ReqGet ["A"]; ReqCleanup]) as Hrs
    by (repeat constructor; intros []).
  split; [exact Hrs|].
  exact (proj2 (proj2 (Registry.clean_assets_then_list_is_empty
                         [Sample.usd_asset; Sample.cny_asset]) _ Hrs)).
Defined.

Lemma reads_keep_assets_at_sample :
  Forall is_read [ReqList; ReqGet ["A"]; ReqList]
  ∧ serve_all [ReqList; ReqGet ["A"]; ReqList] [Sample.usd_asset; Sample.cny_asset]
    ≡ₚ [Sample.usd_asset; Sample.cny_asset].
Proof.
  assert (Forall is_read [ReqList; ReqGet ["A"]; ReqList]) as Hrs
    by (repeat constructor).
  split; [exact Hrs|].
  exact (proj2 (proj2 (Registry.reads_keep_the_stored_assets
                         [Sample.usd_asset; Sample.cny_asset])) _ Hrs).
Defined.

End Witness.

(** ** The key-indicators parser *)

Module Indicators.
Import PyStr PyNum PySeq Html IndicatorParser Spec Vocabulary.

Local Open Scope Qc_scope.






(** X2. With fewer than two blocks of the expected class on the page the
    parser raises [IndexError]; it returns no table. *)
Theorem key_indicators_needs_two_blocks (root : element) :
  (List.length (select_blocks root) < 2)%nat →
  parse_cbr_key_indicators root = Raise IndexError.
Proof.
  intros Hlen. unfold parse_cbr_key_indicators.
  destruct (select_blocks root) as [|block0 [|block1 others]]; [done|done|].
  simpl in Hlen. lia.
Qed.

Lemma parsed_usd_and_eur (root : element) (table : gmap string Qc) :
  parse_cbr_key_indicators root = Ok table →
  ∃ block0 seg_usd seg_eur usd eur,
    select_blocks root !! 0%nat = Some block0
    ∧ segments block0 !! 16%nat = Some seg_usd ∧ py_float seg_usd = Ok usd
    ∧ segments block0 !! (List.length (segments block0) - 5)%nat = Some seg_eur
    ∧ py_float seg_eur = Ok eur
    ∧ table !! "USD" = Some usd ∧ table !! "EUR" = Some eur.
Proof.
  unfold parse_cbr_key_indicators.
  destruct (select_blocks root) as [|block0 [|block1 others]]; [done|done|].
  change (getitem (block0 :: block1 :: others) 1) with (Ok block1).
  change (getitem (block0 :: block1 :: others) 0) with (Ok block0).
  rewrite !result_bind_ok. fold (segments block1). fold (segments block0).
  destruct (comprehension _ _) as [prices|e]; [|done].
  rewrite !result_bind_ok. fold (segments block0). unfold getitem at 1.
  destruct (segments block0 !! 16%nat) as [seg_usd|] eqn:Husd; [|done].
  rewrite result_bind_ok.
  destruct (py_float seg_usd) as [usd|e] eqn:Hfusd; [|done].
  rewrite !result_bind_ok. fold (segments block0). unfold getitem_last.
  destruct (decide (5 ≤ List.length (segments block0))%nat) as [Hlen|Hlen]; [|done].
  unfold getitem.
  destruct (segments block0 !! (List.length (segments block0) - 5)%nat)
    as [seg_eur|] eqn:Heur; [|done].
  rewrite result_bind_ok.
  destruct (py_float seg_eur) as [eur|e] eqn:Hfeur; [|done].
  intros [= <-]. exists block0, seg_usd, seg_eur, usd, eur.
  repeat split; try done.
  - by rewrite lookup_insert_ne, lookup_insert_eq.
  - by rewrite lookup_insert_eq.
Qed.


(** X3. Whenever the parser returns a table, the table has an entry for
    USD and one for EUR, read from the 17th line and from the 5th line
    from the end of the first block; a metal listed under one of these
    codes never shows. *)
Theorem key_indicators_always_list_usd_and_eur (root : element) (table : gmap string Qc) :
  parse_cbr_key_indicators root = Ok table →
  ∃ block0 seg_usd seg_eur usd eur,
    select_blocks root !! 0%nat = Some block0
    ∧ segments block0 !! 16%nat = Some seg_usd ∧ py_float seg_usd = Ok usd
    ∧ segments block0 !! (List.length (segments block0) - 5)%nat = Some seg_eur
    ∧ py_float seg_eur = Ok eur
    ∧ table !! "USD" = Some usd ∧ table !! "EUR" = Some eur.
Proof. apply parsed_usd_and_eur. Qed.

End Indicators.

(** ** More on the asset registry *)

Module RegistryFacts.
Import PyStr PyNum AssetM Service Spec Vocabulary.

Lemma sort_by_char_code_of_sorted l :
  StronglySorted by_char_code l → sort_by_char_code l = l.
Proof.
  induction 1 as [|a l Hl IH Ha]; [done|].
  simpl. rewrite IH. destruct l as [|b l]; [done|].
  simpl. apply Forall_cons in Ha as [Hab _].
  unfold by_char_code, String.le in Hab.
  by destruct (String.leb (char_code a) (char_code b)).
Qed.

Lemma filter_by_code_nil l :
  (∀ c, filter (λ x : Asset, char_code x = c) l = []) → l = [].
Proof.
  destruct l as [|a l]; [done|]. intros H. specialize (H (char_code a)).
  by rewrite filter_cons_True in H.
Qed.

(** Two sorted arrangements that keep the same order among the assets of
    each [char_code] are the same list. *)
Lemma stable_sorted_unique l1 l2 :
  StronglySorted by_char_code l1 → StronglySorted by_char_code l2 →
  (∀ c, filter (λ x, char_code x = c) l1 = filter (λ x, char_code x = c) l2) →
  l1 = l2.
Proof.
  intros H1. revert l2. induction H1 as [|a l1 Hl1 IH Ha]; intros l2 H2 Hf.
  - symmetry. apply filter_by_code_nil. intros c. by rewrite <-Hf.
  - destruct H2 as [|b l2 Hl2 Hb].
    { pose proof (Hf (char_code a)) as H. by rewrite filter_cons_True in H. }
    assert (a = b) as <-.
    { destruct (decide (char_code b = char_code a)) as [Heq|Hne].
      - pose proof (Hf (char_code a)) as H.
        rewrite !filter_cons_True in H by done. by injection H.
      - exfalso. apply Hne.
        assert (b ∈ l1) as Hbin.
        { assert (b ∈ filter (λ x, char_code x = char_code b) (a :: l1)) as Hin
            by (rewrite Hf, filter_cons_True by done; left).
          apply list_elem_of_filter in Hin as [_ Hin].
          apply elem_of_cons in Hin as [->|Hin]; done. }
        assert (a ∈ l2) as Hain.
        { assert (a ∈ filter (λ x, char_code x = char_code a) (b :: l2)) as Hin
            by (rewrite <-Hf, filter_cons_True by done; left).
          apply list_elem_of_filter in Hin as [_ Hin].
          apply elem_of_cons in Hin as [->|Hin]; done. }
        rewrite Forall_forall in Ha, Hb.
        apply (anti_symm String.le); [by apply Hb | by apply Ha]. }
    f_equal. apply IH; [done|]. intros c. specialize (Hf c).
    rewrite !filter_cons in Hf. destruct (decide (char_code a = c)); [|done].
    by injection Hf.
Qed.

(** X4. The listing keeps the assets of one [char_code] in the order the
    registry holds them, and it is the only arrangement of the registry
    that is sorted by [char_code] and does so. *)
Theorem listing_is_the_stable_arrangement (all_assets : list Asset) :
  (∀ c, filter (λ x, char_code x = c) (print_assets all_assets).2
        = filter (λ x, char_code x = c) all_assets)
  ∧ (∀ arranged,
       StronglySorted by_char_code arranged →
       (∀ c, filter (λ x, char_code x = c) arranged
             = filter (λ x, char_code x = c) all_assets) →
       arranged = (print_assets all_assets).2).
Proof.
  split.
  - intros c. apply sort_by_char_code_stable.
  - intros arranged Hsorted Hsame. apply stable_sorted_unique; [done| |].
    + apply sort_by_char_code_sorted.
    + intros c. simpl. by rewrite sort_by_char_code_stable.
Qed.

Lemma serve_read_of_sorted r l :
  is_read r → StronglySorted by_char_code l → serve r l = l.
Proof.
  destruct r; simpl; try done; intros _ Hl; by apply sort_by_char_code_of_sorted.
Qed.

(** X5. Once the registry has been listed, further listings and
    findByNames requests leave it exactly as it is, and a new listing
    gives the same answer. *)
Theorem reads_after_a_listing_change_nothing (all_assets : list Asset) (rs : list request) :
  Forall is_read rs →
  serve_all rs (print_assets all_assets).2 = (print_assets all_assets).2
  ∧ print_assets (serve_all rs (print_assets all_assets).2) = print_assets all_assets.
Proof.
  intros Hrs.
  assert (serve_all rs (print_assets all_assets).2 = (print_assets all_assets).2) as Hsame.
  { simpl. pose proof (sort_by_char_code_sorted all_assets) as Hs.
    induction Hrs as [|r rs Hr _ IH]; [done|].
    unfold serve_all in *. simpl. by rewrite (serve_read_of_sorted r _ Hr Hs). }
  split; [done|]. rewrite Hsame. unfold print_assets. simpl.
  by rewrite (sort_by_char_code_of_sorted _ (sort_by_char_code_sorted all_assets)).
Qed.

Lemma serve_keeps_assets r all_assets : ¬ is_cleanup r → all_assets ⊆+ serve r all_assets.
Proof.
  destruct r as [c n cap i| | |names|ps ind cur]; simpl; intros Hr.
  - unfold add_asset. destruct (asset_has_duplicate_name _ _); simpl; [done|].
    by apply submseteq_inserts_r.
  - by rewrite sort_by_char_code_perm.
  - done.
  - by rewrite sort_by_char_code_perm.
  - unfold calc_all_revenue.
    destruct ind, cur; simpl; try done. by destruct (revenue_table _ _ _ _).
Qed.

Lemma serve_all_keeps_assets rs all_assets :
  Forall (λ r, ¬ is_cleanup r) rs → all_assets ⊆+ serve_all rs all_assets.
Proof.
  intros Hrs. revert all_assets.
  induction Hrs as [|r rs Hr _ IH]; intros l; [done|].
  unfold serve_all in *. simpl. etrans; [by apply serve_keeps_assets|]. apply IH.
Qed.

(** X6. Only a cleanup removes assets: through any run of requests
    without a cleanup, every asset of the registry stays in it, as many
    times as it was there, and the registry does not get shorter. *)
Theorem assets_stay_until_cleanup (rs : list request) (all_assets : list Asset) :
  Forall (λ r, ¬ is_cleanup r) rs →
  all_assets ⊆+ serve_all rs all_assets
  ∧ (List.length all_assets ≤ List.length (serve_all rs all_assets))%nat.
Proof.
  intros Hrs. pose proof (serve_all_keeps_assets rs all_assets Hrs) as Hsub.
  split; [done|]. by apply submseteq_length.
Qed.












End RegistryFacts.

(** ** More on the revenue computation *)

Module RevenueFacts.
Import PyStr PyNum AssetM Service Spec Vocabulary.

Local Open Scope Qc_scope.











Lemma py_round_zero : py_round 0 8 = 0.
Proof. apply Qc_decomp. vm_compute. reflexivity. Qed.

Lemma empty_registry_loop indicators periods currencies res :
  for_each (period_step indicators []) periods (currencies, res)
  = Ok (currencies, foldl (λ m s, <[s := 0]> m) res periods).
Proof.
  revert res. induction periods as [|s periods IH]; intros res; [done|].
  rewrite for_each_cons. unfold period_step at 1. simpl.
  unfold dict_getitem. rewrite lookup_insert_eq. simpl.
  rewrite insert_insert_eq, py_round_zero. apply IH.
Qed.

Lemma zeros_lookup (periods : list string) (res : gmap string Qc) s :
  foldl (λ m s, <[s := 0]> m) res periods !! s
  = if decide (s ∈ periods) then Some 0 else res !! s.
Proof.
  revert res. induction periods as [|s' periods IH]; intros res; simpl.
  - destruct (decide (s ∈ [])) as [H|_]; [by apply elem_of_nil in H | done].
  - rewrite IH. destruct (decide (s ∈ periods)) as [Hin|Hin].
    + rewrite decide_True; [done | by right].
    + destruct (decide (s = s')) as [->|Hne].
      * rewrite decide_True; [|by left]. by rewrite lookup_insert_eq.
      * rewrite decide_False; [by rewrite lookup_insert_ne|].
        intros [?|?]%elem_of_cons; done.
Qed.

(** X12. On an empty registry the handler answers 200 with the total 0
    for every requested period, whatever the periods are: a period that
    is no number goes unnoticed, since it is only read when an asset is
    summed. *)
Theorem empty_registry_totals_are_zero
    (input_periods : list string) (indicators currencies : gmap string Qc) :
  ∃ res,
    calc_all_revenue input_periods (Some indicators) (Some currencies) []
    = (Reply res 200, [])
    ∧ ∀ s, res !! s = if decide (s ∈ input_periods) then Some 0 else None.
Proof.
  exists (foldl (λ m s, <[s := 0]> m) ∅ input_periods). split.
  - unfold calc_all_revenue, revenue_table. by rewrite empty_registry_loop.
  - intros s. by rewrite zeros_lookup, lookup_empty.
Qed.



Lemma applicable_rate_ignores_rub indicators currencies x a :
  applicable_rate indicators (<["RUB" := x]> currencies) a
  = applicable_rate indicators currencies a.
Proof.
  unfold applicable_rate. destruct (indicators !! char_code a); [done|].
  destruct (decide (char_code a = "RUB")); [done|].
  by rewrite lookup_insert_ne.
Qed.

(** X14. What the daily table says about RUB never shows in the answer:
    for periods that are non-negative integers, the totals are the same
    whatever rate the daily table lists for RUB. *)
Theorem daily_rub_entry_is_ignored
    (input_periods : list string) (indicators currencies : gmap string Qc)
    (all_assets : list Asset) (x : Qc) :
  Forall (λ s, ∃ p, period_of s p) input_periods →
  revenue_table input_periods indicators (<["RUB" := x]> currencies) all_assets
  = revenue_table input_periods indicators currencies all_assets.
Proof.
  intros Hps. rewrite !Revenue.revenue_table_totals by done. f_equal.
  assert (∀ s, period_total indicators (<["RUB" := x]> currencies) all_assets s
               = period_total indicators currencies all_assets s) as Hsame.
  { intros s. unfold period_total. destruct (py_int s) as [p|]; [|done]. f_equal.
    unfold revenue_sum. f_equal. apply map_ext. intros a.
    by rewrite applicable_rate_ignores_rub. }
  clear Hps. unfold totals. generalize (∅ : gmap string Qc).
  induction input_periods as [|s periods IH]; intros res; simpl; [done|].
  by rewrite Hsame, IH.
Qed.

End RevenueFacts.

(** ** More on the daily-rates parser *)

Section for_each_invariant.
Context {A S : Type} (P : S → Prop) (body : A → S → result S).
Hypothesis body_keeps : ∀ x s s', P s → body x s = Ok s' → P s'.

Lemma for_each_keeps (l : list A) (s s' : S) :
  P s → for_each body l s = Ok s' → P s'.
Proof.
  revert s. induction l as [|x l IH]; intros s Hs; simpl.
  - by intros [= <-].
  - destruct (body x s) as [s1|e] eqn:Hx; simpl; [|done].
    apply IH. by eapply body_keeps.
Qed.

End for_each_invariant.

Module DailyFacts.
Import PyStr PyNum Html RateParser Spec Vocabulary.

Local Open Scope Qc_scope.



Lemma rstrip_idemp s : rstrip (rstrip s) = rstrip s.
Proof.
  induction s as [|c s IH]; simpl; [done|].
  destruct (rstrip s) as [|d t] eqn:Hs.
  - destruct (is_space c) eqn:Hc; simpl; [done | by rewrite Hc].
  - remember (String d t) as u. simpl. rewrite IH. by subst u.
Qed.

Lemma lstrip_head s :
  lstrip s = EmptyString ∨ ∃ c t, lstrip s = String c t ∧ is_space c = false.
Proof.
  induction s as [|c s IH]; simpl; [by left|].
  destruct (is_space c) eqn:Hc; [done|]. right. by exists c, s.
Qed.

Lemma lstrip_rstrip_head c t :
  is_space c = false → lstrip (rstrip (String c t)) = rstrip (String c t).
Proof.
  intros Hc. simpl. destruct (rstrip t); rewrite ?Hc; simpl; by rewrite Hc.
Qed.

Lemma strip_idemp s : strip (strip s) = strip s.
Proof.
  unfold strip. destruct (lstrip_head s) as [->|(c & t & -> & Hc)]; [done|].
  by rewrite lstrip_rstrip_head, rstrip_idemp.
Qed.

Lemma parse_row_keys_stripped el (m m' : gmap string Qc) :
  (∀ key, is_Some (m !! key) → strip key = key) →
  parse_row el m = Ok m' →
  ∀ key, is_Some (m' !! key) → strip key = key.
Proof.
  intros Hm. unfold parse_row.
  destruct (getitem _ 2) as [seg_code|]; simpl; [|done].
  destruct (getitem _ 3) as [seg_unit|]; simpl; [|done].
  destruct (py_int seg_unit) as [unit|]; simpl; [|done].
  destruct (getitem _ 5) as [seg_rate|]; simpl; [|done].
  destruct (py_float seg_rate) as [rate|]; simpl; [|done].
  destruct (py_div rate (Qc_of_Z unit)) as [q|]; simpl; [|done].
  intros [= <-] key. destruct (decide (strip seg_code = key)) as [<-|Hne].
  - intros _. apply strip_idemp.
  - rewrite lookup_insert_ne by done. apply Hm.
Qed.

(** X16. Whatever the page, the codes of a returned table carry no
    white space at either end: stripping a code of the table leaves it as
    it is. *)
Theorem daily_codes_are_stripped (root : element) (table : gmap string Qc) :
  parse_cbr_currency_base_daily root = Ok table →
  ∀ code, is_Some (table !! code) → strip code = code.
Proof.
  unfold parse_cbr_currency_base_daily.
  apply (for_each_keeps (λ m : gmap string Qc, ∀ key, is_Some (m !! key) → strip key = key)
           parse_row).
  - intros el m m'. apply parse_row_keys_stripped.
  - intros key. rewrite lookup_empty. by intros [? ?].
Qed.

End DailyFacts.

(** ** The upstream routes *)

Module RoutesFacts.
Import PyStr PyNum Html RateParser IndicatorParser AssetM Service Routes Spec Vocabulary.

Local Open Scope Qc_scope.

Lemma fetch_with_cases parse up :
  (∃ root table, up = Answered 200 (Some root) ∧ parse root = Ok table
                 ∧ fetch_with parse up = Reply table 200)
  ∨ ((∀ root table, up = Answered 200 (Some root) → parse root ≠ Ok table)
     ∧ fetch_with parse up = Abort 503).
Proof.
  destruct up as [|code [root|]]; simpl; [by right| |].
  - destruct (decide (code = 200)) as [->|Hne]; [|right; split; [congruence|done]].
    destruct (parse root) as [table|e] eqn:Hp.
    + left. by exists root, table.
    + right. split; [|done]. intros ?? [= <-]. congruence.
  - right. split; [done|]. by destruct (decide (code = 200)).
Qed.

(** Each upstream route answers either 200 with the table parsed from a
    page that was served with status 200, or 503; it answers 503 when the
    site cannot be reached, serves another status, or serves a page the
    parser raises on. *)
Lemma upstream_routes_answer_200_or_503 (up : upstream) :
  (∀ table status, get_daily_currencies up = Reply table status →
     status = 200
     ∧ ∃ root, up = Answered 200 (Some root)
               ∧ parse_cbr_currency_base_daily root = Ok table)
  ∧ (∀ table status, get_indicators up = Reply table status →
       status = 200
       ∧ ∃ root, up = Answered 200 (Some root)
                 ∧ parse_cbr_key_indicators root = Ok table)
  ∧ (∀ status, get_daily_currencies up = Abort status → status = 503)
  ∧ (∀ status, get_indicators up = Abort status → status = 503)
  ∧ ((∀ root, up ≠ Answered 200 (Some root)) →
     get_daily_currencies up = Abort 503 ∧ get_indicators up = Abort 503).
Proof.
  unfold get_daily_currencies, get_indicators, fetch_with.
  destruct up as [|code [root|]].
  - repeat split; intros; simplify_eq; done.
  - destruct (decide (code = 200)) as [->|Hne].
    + destruct (parse_cbr_currency_base_daily root) as [td|ed] eqn:Hd,
        (parse_cbr_key_indicators root) as [ti|ei] eqn:Hi;
        repeat split; intros; simplify_eq; eauto;
        match goal with H : ∀ r, _ ≠ _ |- _ => by destruct (H root) end.
    + repeat split; intros; simplify_eq; done.
  - destruct (decide (code = 200)); repeat split; intros; simplify_eq; done.
Qed.

(** X17. On a page that lacks what the parsers look for, the two routes
    differ: without a table of class [data] the daily route answers 200
    with an empty table; with fewer than two blocks of indicators the
    key-indicators route answers 503. *)
Theorem routes_on_a_page_without_rates (root : element) :
  (has_data_table root = false →
   get_daily_currencies (Answered 200 (Some root)) = Reply ∅ 200)
  ∧ ((List.length (select_blocks root) < 2)%nat →
     get_indicators (Answered 200 (Some root)) = Abort 503).
Proof.
  unfold get_daily_currencies, get_indicators, fetch_with. simpl. split.
  - intros Hno. unfold parse_cbr_currency_base_daily.
    by rewrite (Daily.no_data_table_no_rows root Hno).
  - intros Hlen. unfold parse_cbr_key_indicators.
    destruct (select_blocks root) as [|block0 [|block1 others]]; [done|done|].
    simpl in Hlen. lia.
Qed.

(** X18. The revenue route leaves the registry as it is and answers 200
    or 503; it answers 503 whenever one of the two pages is not served
    with status 200, whatever the registry and the periods. *)
Theorem revenue_route_needs_both_pages
    (input_periods : list string) (indicators_page daily_page : upstream)
    (all_assets : list Asset) :
  (calculate_revenue_route input_periods indicators_page daily_page all_assets).2
  = all_assets
  ∧ ((calculate_revenue_route input_periods indicators_page daily_page all_assets).1
     = Abort 503
     ∨ ∃ res,
         (calculate_revenue_route input_periods indicators_page daily_page all_assets).1
         = Reply res 200)
  ∧ ((∀ root, indicators_page ≠ Answered 200 (Some root))
     ∨ (∀ root, daily_page ≠ Answered 200 (Some root)) →
     (calculate_revenue_route input_periods indicators_page daily_page all_assets).1
     = Abort 503).
Proof.
  unfold calculate_revenue_route, get_daily_currencies, get_indicators, calc_all_revenue.
  destruct (fetch_with_cases parse_cbr_key_indicators indicators_page)
    as [(ri & ti & Hi & _ & ->)|[_ ->]];
  destruct (fetch_with_cases parse_cbr_currency_base_daily daily_page)
    as [(rd & td & Hd & _ & ->)|[_ ->]]; simpl.
  - destruct (revenue_table _ _ _ _) as [res|e]; simpl.
    + split; [done|]. split; [right; by eexists|].
      intros [Hno|Hno]; [by destruct (Hno ri) | by destruct (Hno rd)].
    + split; [done|]. split; [by left|done].
  - split; [done|]. split; [by left|done].
  - split; [done|]. split; [by left|done].
  - split; [done|]. split; [by left|done].
Qed.

(** X19. With the key-indicators table as the parser returns it, an
    asset in USD or in EUR is always given the key-indicators rate, the
    one read on the first block of that page, whatever the daily table
    lists; the daily table is left as it is. *)
Theorem usd_and_eur_use_key_indicators
    (root : element) (indicators currencies : gmap string Qc) (a : Asset) :
  parse_cbr_key_indicators root = Ok indicators →
  char_code a = "USD" ∨ char_code a = "EUR" →
  ∃ rate,
    indicators !! char_code a = Some rate
    ∧ select_rate indicators a currencies = Ok (rate, currencies).
Proof.
  intros Hparse Hcode.
  destruct (Indicators.parsed_usd_and_eur root indicators Hparse)
    as (block0 & seg_usd & seg_eur & usd & eur & _ & _ & _ & _ & _ & Husd & Heur).
  unfold select_rate, dict_getitem.
  destruct Hcode as [-> | ->]; [exists usd | exists eur]; simpl.
  - by rewrite Husd.
  - by rewrite Heur.
Qed.

End RoutesFacts.

(** ** The further properties at sample inputs *)

Module Witness2.
Import PyStr PyNum PySeq AssetM Html RateParser IndicatorParser Service Routes.
Import Spec Vocabulary.

Local Open Scope Qc_scope.


Lemma indicators_page_parses :
  parse_cbr_key_indicators Sample2.indicators_page = Ok Sample2.parsed_indicators.
Proof. reflexivity. Defined.


Lemma no_blocks_at_sample :
  (List.length (select_blocks Sample.page_without_table) < 2)%nat
  ∧ parse_cbr_key_indicators Sample.page_without_table = Raise IndexError.
Proof.
  assert (List.length (select_blocks Sample.page_without_table) < 2)%nat as Hlen
    by (simpl; lia).
  split; [exact Hlen|].
  exact (Indicators.key_indicators_needs_two_blocks Sample.page_without_table Hlen).
Defined.

Lemma usd_and_eur_listed_at_sample :
  ∃ block0 seg_usd seg_eur usd eur,
    select_blocks Sample2.indicators_page !! 0%nat = Some block0
    ∧ segments block0 !! 16%nat = Some seg_usd ∧ py_float seg_usd = Ok usd
    ∧ segments block0 !! (List.length (segments block0) - 5)%nat = Some seg_eur
    ∧ py_float seg_eur = Ok eur
    ∧ Sample2.parsed_indicators !! "USD" = Some usd
    ∧ Sample2.parsed_indicators !! "EUR" = Some eur.
Proof.
  exact (Indicators.key_indicators_always_list_usd_and_eur
           Sample2.indicators_page Sample2.parsed_indicators indicators_page_parses).
Defined.

Lemma stable_arrangement_at_sample :
  [Sample.cny_asset; Sample.usd_asset]
  = (print_assets [Sample.usd_asset; Sample.cny_asset]).2.
Proof.
  apply (proj2 (RegistryFacts.listing_is_the_stable_arrangement
                  [Sample.usd_asset; Sample.cny_asset])).
  - repeat constructor.
  - intros c. rewrite !filter_cons, !filter_nil. simpl.
    destruct (decide ("CNY" = c)), (decide ("USD" = c)); simplify_eq; done.
Defined.

Lemma reads_after_listing_at_sample :
  Forall is_read [ReqGet ["A"]; ReqList]
  ∧ serve_all [ReqGet ["A"]; ReqList] (print_assets [Sample.usd_asset; Sample.cny_asset]).2
    = (print_assets [Sample.usd_asset; Sample.cny_asset]).2.
Proof.
  assert (Forall is_read [ReqGet ["A"]; ReqList]) as Hrs by (repeat constructor).
  split; [exact Hrs|].
  exact (proj1 (RegistryFacts.reads_after_a_listing_change_nothing
                  [Sample.usd_asset; Sample.cny_asset] _ Hrs)).
Defined.

Lemma assets_stay_at_sample :
  Forall (λ r, ¬ is_cleanup r) [ReqAdd "EUR" "D" 1 1; ReqList]
  ∧ [Sample.usd_asset; Sample.cny_asset]
    ⊆+ serve_all [ReqAdd "EUR" "D" 1 1; ReqList] [Sample.usd_asset; Sample.cny_asset].
Proof.
  assert (Forall (λ r, ¬ is_cleanup r) [ReqAdd "EUR" "D" 1 1; ReqList]) as Hrs
    by (repeat constructor; intros []).
  split; [exact Hrs|].
  exact (proj1 (RegistryFacts.assets_stay_until_cleanup _
                  [Sample.usd_asset; Sample.cny_asset] Hrs)).
Defined.







Lemma daily_rub_at_sample :
  revenue_table ["1"; "5"] Sample.indicators (<["RUB" := Qc_of_Z 3]> Sample.currencies)
    [Sample.rub_asset "deposit"; Sample.cny_asset]
  = revenue_table ["1"; "5"] Sample.indicators Sample.currencies
      [Sample.rub_asset "deposit"; Sample.cny_asset].
Proof.
  apply RevenueFacts.daily_rub_entry_is_ignored.
  repeat constructor; [exists 1%Z | exists 5%Z]; (split; [reflexivity | done]).
Defined.



Lemma stripped_codes_at_sample : strip "USD" = "USD".
Proof.
  apply (DailyFacts.daily_codes_are_stripped
           (Sample.page [Sample.header_row; Sample.usd_row])
           {["USD" := py_round (Q2Qc (623450 # 10000) / Qc_of_Z 978) 8]}).
  - reflexivity.
  - eexists. reflexivity.
Defined.

Lemma other_status_at_sample :
  get_daily_currencies (Answered 404 None) = Abort 503
  ∧ get_indicators (Answered 404 None) = Abort 503.
Proof.
  apply (proj2 (proj2 (proj2 (proj2
           (RoutesFacts.upstream_routes_answer_200_or_503 (Answered 404 None)))))).
  intros root. discriminate.
Defined.

Lemma page_without_rates_at_sample :
  has_data_table Sample.page_without_table = false
  ∧ get_daily_currencies (Answered 200 (Some Sample.page_without_table)) = Reply ∅ 200.
Proof.
  split; [reflexivity|].
  exact (proj1 (RoutesFacts.routes_on_a_page_without_rates Sample.page_without_table)
           eq_refl).
Defined.

Lemma unreachable_indicators_at_sample :
  (calculate_revenue_route ["1"] Unreachable
     (Answered 200 (Some (Sample.page [Sample.header_row; Sample.usd_row])))
     [Sample.usd_asset]).1
  = Abort 503.
Proof.
  apply (proj2 (proj2 (RoutesFacts.revenue_route_needs_both_pages ["1"] Unreachable
                         (Answered 200 (Some (Sample.page [Sample.header_row; Sample.usd_row])))
                         [Sample.usd_asset]))).
  left. intros root. discriminate.
Defined.

Lemma usd_rate_at_sample :
  ∃ rate,
    Sample2.parsed_indicators !! char_code Sample.usd_asset = Some rate
    ∧ select_rate Sample2.parsed_indicators Sample.usd_asset Sample.currencies
      = Ok (rate, Sample.currencies).
Proof.
  apply (RoutesFacts.usd_and_eur_use_key_indicators Sample2.indicators_page).
  - exact indicators_page_parses.
  - by left.
Defined.

End Witness2.
